(** * savedata.ipynb: gap check and export of per-station weather series

    A shallow embedding of the notebook [Simple predictive models/savedata.ipynb]:
    the gap checker [find_missing_dates] (cell 5), the per-station reporting
    loop (cell 6) and the exporter [save_data] (cell 7).

    Python values are modelled as follows.
    - A [datetime.date] is represented by its proleptic Gregorian ordinal
      ([date.toordinal()]): Python's date comparison, hashing, [date - date]
      and [date + timedelta] are all defined through that ordinal.
    - A [set] is a [gset], a [dict] is a [gmap].
    - A raised exception is the [Err] branch of [result]. *)

From stdpp Require Import gmap strings list sorting pretty fin_maps.

Open Scope Z_scope.

(** ** Exceptions *)

Inductive exn :=
  | IndexError
  | KeyError
  | NameError
  | ValueError
  | OSError.

Inductive result (A : Type) :=
  | Ok (a : A)
  | Err (e : exn).
Arguments Ok {A} a.
Arguments Err {A} e.

Definition bind {A B} (r : result A) (k : A → result B) : result B :=
  match r with
  | Ok a => k a
  | Err e => Err e
  end.

Notation "x ←' r ;; k" := (bind r (λ x, k))
  (at level 100, r at next level, right associativity, only parsing).

(** ** datetime *)

Module datetime.

(** A [date], as its ordinal: day 1 is 0001-01-01. *)
Abbreviation date := Z (only parsing).

(** A [timedelta]; only whole days occur in this program. *)
Record timedelta := mk_timedelta { days : Z }.

(** [timedelta(x)]: the first positional argument is [days]. *)
Definition timedelta_of (x : Z) : timedelta := mk_timedelta x.

(** [date.__sub__]: [timedelta(self.toordinal() - other.toordinal())]. *)
Definition sub (d1 d2 : date) : timedelta := mk_timedelta (d1 - d2).

(** [date.__add__]: [date.fromordinal(self.toordinal() + delta.days)]. *)
Definition add (d : date) (t : timedelta) : date := d + days t.

(** The calendar arithmetic of [datetime.py], used to build dates from
    year, month and day. *)
Definition is_leap (year : Z) : bool :=
  (year mod 4 =? 0) && (negb (year mod 100 =? 0) || (year mod 400 =? 0)).

Definition days_before_year (year : Z) : Z :=
  let y := year - 1 in
  y * 365 + y / 4 - y / 100 + y / 400.

Definition DAYS_IN_MONTH : list Z :=
  [31; 28; 31; 30; 31; 30; 31; 31; 30; 31; 30; 31].

Definition days_before_month (year month : Z) : Z :=
  foldr Z.add 0 (take (Z.to_nat (month - 1)) DAYS_IN_MONTH)
  + (if (2 <? month) && is_leap year then 1 else 0).

Definition ymd2ord (year month day : Z) : date :=
  days_before_year year + days_before_month year month + day.

End datetime.

Import datetime.

(** ** Builtins *)

(** [range(n)]: [0, 1, ..., n-1], empty when [n <= 0]. *)
Definition range (n : Z) : list Z := seqZ 0 n.

(** [sorted(s)] for a set of dates: its elements in ascending order. *)
Definition sorted (s : gset date) : list date := merge_sort Z.le (elements s).

(** [l[0]] and [l[-1]]; both raise [IndexError] on the empty list. *)
Definition first_item {A} (l : list A) : result A :=
  match head l with
  | Some a => Ok a
  | None => Err IndexError
  end.

Definition last_item {A} (l : list A) : result A :=
  match last l with
  | Some a => Ok a
  | None => Err IndexError
  end.

(** ** Cell 5: the gap checker *)

(** [set(start + timedelta(x) for x in range((end - start).days))] *)
Definition completed_dates (start end_ : date) : gset date :=
  list_to_set ((λ x, add start (timedelta_of x)) <$> range (days (sub end_ start))).

(** [[
def find_missing_dates(dates):
    dates_list = list(dates)
    start, end = dates_list[0], dates_list[-1]
    completed_dates = set(start + timedelta(x) for x in range((end - start).days))
    missing = set(dates_list) - completed_dates
    return sorted(missing)
]] *)
Definition find_missing_dates (dates : list date) : result (list date) :=
  let dates_list := dates in
  start ←' first_item dates_list ;;
  end_ ←' last_item dates_list ;;
  let completed := completed_dates start end_ in
  let missing := list_to_set dates_list ∖ completed in
  Ok (sorted missing).

(** The gap check as the specification words it: the complete calendar range
    from the first date up to but not including the last one, minus the
    supplied dates, sorted.  This definition follows the specification, not
    the code; it is what [find_missing_dates] is compared with. *)
Definition missing_dates_spec (dates : list date) : result (list date) :=
  start ←' first_item dates ;;
  end_ ←' last_item dates ;;
  Ok (sorted (completed_dates start end_ ∖ list_to_set dates)).

(** A complete, gap-free ascending sequence: every calendar date from its
    first to its last, in order. *)
Definition gap_free (dates : list date) : Prop :=
  ∃ start n, dates = seqZ start (Z.of_nat (S n)).

(** Sorted ascending (repeated dates allowed). *)
Definition ascending (dates : list date) : Prop := Sorted Z.le dates.

(** ** Calendar dates used in the examples *)

Definition jan2020 (day : Z) : date := ymd2ord 2020 1 day.

(** 2020-01-01 .. 2020-01-10, every day present. *)
Definition jan_01_to_10 : list date := jan2020 <$> [1; 2; 3; 4; 5; 6; 7; 8; 9; 10].

(** 2020-01-01 .. 2020-01-10 with 2020-01-05 absent. *)
Definition jan_01_to_10_without_05 : list date :=
  jan2020 <$> [1; 2; 3; 4; 6; 7; 8; 9; 10].


(** [str(n)] for an integer. *)
Definition str (n : Z) : string := pretty n.

(** ** pandas, as far as the notebook uses it *)

Module pandas.

(** The keyword arguments of [DataFrame.to_csv] that matter here. *)
Record to_csv_kwargs := {
  kw_sep : string;
  kw_columns : option (list string);
  kw_header : bool;
  kw_index : bool }.

(** The defaults of the signature
    [to_csv(path_or_buf=None, sep=',', ..., columns=None, header=True, index=True, ...)]. *)
Definition to_csv_defaults : to_csv_kwargs :=
  {| kw_sep := ","; kw_columns := None; kw_header := true; kw_index := true |}.

(** What the notebook asks of a [DataFrame]: its column labels, its
    [mess_datum] column, and the text [to_csv] produces for given keyword
    arguments.  The serialisation is the library's and is left abstract. *)
Class Frame (DataFrame : Type) := {
  columns : DataFrame → list string;
  mess_datum : DataFrame → list date;
  to_csv_text : DataFrame → to_csv_kwargs → string }.

End pandas.

Import pandas.

(** The files of the file system: path to content. *)
Abbreviation filesystem := (gmap string string).

Section notebook.

Context {DataFrame : Type} `{!Frame DataFrame}.

(** Whether opening a path for writing succeeds (the directory exists, the
    process may write there, ...). *)
Variable writable : string → bool.

(** [data.to_csv(path_or_buf, **kw)]: writes the text to the file, or
    raises when the file cannot be opened. *)
Definition to_csv (data : DataFrame) (path_or_buf : string)
    (kw : to_csv_kwargs) (fs : filesystem) : result filesystem :=
  if writable path_or_buf
  then Ok (<[path_or_buf := to_csv_text data kw]> fs)
  else Err OSError.

(** *** Cell 6: the reporting loop *)

(** Values held by module-level names. *)
Inductive value :=
  | VInt (n : Z)
  | VDates (l : list date)
  | VFrame (data : DataFrame)
  | VSeries (ids : list Z)
  | VDict (d : gmap Z DataFrame)
  | VObject.  (* a module or a function *)

(** The truth value an [if] takes of a value: a number is true when not
    zero, a list or a dict when not empty, a module or a function always;
    pandas refuses to give one for a frame or a series. *)
Definition truth (v : value) : result bool :=
  match v with
  | VInt n => Ok (negb (n =? 0))
  | VDates l => Ok (negb (bool_decide (l = [])))
  | VFrame _ => Err ValueError
  | VSeries _ => Err ValueError
  | VDict d => Ok (negb (bool_decide (d = ∅)))
  | VObject => Ok true
  end.

(** The lines the loop prints. *)
Inductive line :=
  (* "For station_id = %d following days are missing:" % id_i *)
  | following_days_are_missing (id_i : Z)
  (* print(missing) *)
  | print_value (v : value)
  (* "For station_id = %d there are no missing days." % id_i *)
  | no_missing_days (id_i : Z).

(** How a run of the cell ends: the module namespace, what was printed,
    and the exception that stopped it, if any. *)
Record outcome := {
  globals : gmap string value;
  stdout : list line;
  raised : option exn }.

(** [[
for id_i in ids:
    data = id2data[id_i]
    misssing = find_missing_dates(data.mess_datum)
    if missing:
        print("For station_id = %d following days are missing:" % id_i)
        print(missing)
    else:
        print("For station_id = %d there are no missing days." % id_i)
]] *)
Fixpoint report (id2data : gmap Z DataFrame) (ids : list Z)
    (g : gmap string value) (out : list line) : outcome :=
  match ids with
  | [] => {| globals := g; stdout := out; raised := None |}
  | id_i :: ids =>
    let g := <["id_i" := VInt id_i]> g in
    match id2data !! id_i with
    | None => {| globals := g; stdout := out; raised := Some KeyError |}
    | Some data =>
      let g := <["data" := VFrame data]> g in
      match find_missing_dates (mess_datum data) with
      | Err e => {| globals := g; stdout := out; raised := Some e |}
      | Ok r =>
        let g := <["misssing" := VDates r]> g in
        match g !! "missing" with
        | None => {| globals := g; stdout := out; raised := Some NameError |}
        | Some missing =>
          match truth missing with
          | Err e => {| globals := g; stdout := out; raised := Some e |}
          | Ok true =>
            report id2data ids g
              (out ++ [following_days_are_missing id_i; print_value missing])
          | Ok false =>
            report id2data ids g (out ++ [no_missing_days id_i])
          end
        end
      end
    end
  end.


(** *** Cell 7: the exporter *)

(** [datadict.keys()] *)
Definition keys (datadict : gmap Z DataFrame) : list Z :=
  (map_to_list datadict).*1.

(** [path + ('station_' + str(id_i))] *)
Definition full_path (path : string) (id_i : Z) : string :=
  let name := "station_" +:+ str id_i in
  path +:+ name.

(** The keyword arguments of the call
    [data.to_csv(full_path, sep = ';', columns = data.columns, index = False,)]. *)
Definition save_data_kwargs (data : DataFrame) : to_csv_kwargs :=
  {| kw_sep := ";";
     kw_columns := Some (columns data);
     kw_header := kw_header to_csv_defaults;
     kw_index := false |}.

(** The body of the [for] loop of [save_data], over the keys still to
    visit.  The files written before an exception stay written. *)
Fixpoint save_data_loop (datadict : gmap Z DataFrame) (path : string)
    (ks : list Z) (fs : filesystem) : filesystem * result unit :=
  match ks with
  | [] => (fs, Ok tt)
  | id_i :: ks =>
    let full_path := full_path path id_i in
    match datadict !! id_i with
    | None => (fs, Err KeyError)
    | Some data =>
      match to_csv data full_path (save_data_kwargs data) fs with
      | Ok fs' => save_data_loop datadict path ks fs'
      | Err e => (fs, Err e)
      end
    end
  end.

(** [[
def save_data(datadict, path = './data/'):
    for id_i in datadict.keys():
        name = 'station_' + str(id_i)
        full_path = path + name
        data = datadict[id_i]
        data.to_csv(full_path, sep = ';', columns = data.columns, index = False,)
]]
    The function has no [return]: it gives [None], here [tt]. *)
Definition save_data (datadict : gmap Z DataFrame) (path : string)
    (fs : filesystem) : filesystem * result unit :=
  save_data_loop datadict path (keys datadict) fs.

Definition default_path : string := "./data/".

(** The files a successful export holds: for each station of the mapping,
    the text of its frame under its path. *)
Definition station_files (datadict : gmap Z DataFrame) (path : string)
    : filesystem :=
  kmap (full_path path) ((λ data, to_csv_text data (save_data_kwargs data)) <$> datadict).

End notebook.

(** ** Cell 4: the measurement loader *)

Section loader.

Context {DataFrame : Type}.

(** The database as cell 4 reads it: for a station id, what
    [db.query_to_dataframe(db.DailyMeasurement.select(lambda x : x.stations_id == int(id_i)))]
    gives, a frame or the exception the database layer raises.  The tables
    are not written during the run, so the same id gives the same answer. *)
Variable measures_for_id : Z → result DataFrame.

(** The [for] loop of cell 4, over the ids still to visit.  [id2data] is a
    module-level dict: what was stored before an exception stays stored. *)
Fixpoint load_loop (ids : list Z) (id2data : gmap Z DataFrame)
    : gmap Z DataFrame * result unit :=
  match ids with
  | [] => (id2data, Ok tt)
  | id_i :: ids =>
    match measures_for_id id_i with
    | Err e => (id2data, Err e)
    | Ok measures => load_loop ids (<[id_i := measures]> id2data)
    end
  end.

(** [[
id2data = {}
for id_i in ids:
    get_measures_for_id = db.DailyMeasurement.select(lambda x : x.stations_id == int(id_i))
    measures_for_id = db.query_to_dataframe(get_measures_for_id)
    id2data[id_i] = measures_for_id
]] *)
Definition load (ids : list Z) : gmap Z DataFrame * result unit :=
  load_loop ids ∅.

End loader.

(** ** A small frame for examples *)

(** A table of text cells with a [mess_datum] column kept apart. *)
Record table := {
  labels : list string;
  dates_column : list date;
  cells : list (list string) }.

Definition newline : string := String (Ascii.ascii_of_nat 10%nat) "".

Definition join (sep : string) (l : list string) : string :=
  foldr (λ x acc, x +:+ sep +:+ acc) "" l.

#[export] Instance table_Frame : Frame table := {|
  columns := labels;
  mess_datum := dates_column;
  to_csv_text t kw :=
    (if kw_header kw then join (kw_sep kw) (labels t) +:+ newline else "")
    +:+ join newline (join (kw_sep kw) <$> cells t) |}.

Definition station_403 : table :=
  {| labels := ["stations_id"; "mess_datum"];
     dates_column := jan_01_to_10_without_05;
     cells := (λ d, ["403"; str d]) <$> jan_01_to_10_without_05 |}.

Definition station_433 : table :=
  {| labels := ["stations_id"; "mess_datum"];
     dates_column := jan_01_to_10;
     cells := (λ d, ["433"; str d]) <$> jan_01_to_10 |}.

Definition two_stations : gmap Z table :=
  <[403 := station_403]> (<[433 := station_433]> ∅).

(** A station without measurements. *)
Definition empty_station : table :=
  {| labels := ["stations_id"; "mess_datum"]; dates_column := []; cells := [] |}.

(** A database holding the two example stations; any other id has no rows. *)
Definition two_stations_db (id_i : Z) : result table :=
  if id_i =? 403 then Ok station_403
  else if id_i =? 433 then Ok station_433
  else Ok empty_station.

(** A database that cannot be reached. *)
Definition unreachable_db (id_i : Z) : result table := Err OSError.

(** Names bound at module level when cell 6 starts: the imports of cells 1
    and 2 and what cells 3 to 5 define (the two ORM queries, which nothing
    reads afterwards, are left out). *)
Definition notebook_globals : gmap string (value (DataFrame := table)) :=
  list_to_map
    [("plt", VObject); ("date", VObject); ("timedelta", VObject);
     ("pd", VObject); ("db", VObject);
     ("ids", VSeries [403; 433]); ("id2data", VDict two_stations);
     ("id_i", VInt 433); ("measures_for_id", VFrame station_433);
     ("find_missing_dates", VObject)].

(** ** Facts about the builtins *)

Lemma elem_of_range (n x : Z) : x ∈ range n ↔ 0 ≤ x < n.
Proof. unfold range. rewrite elem_of_seqZ. lia. Qed.

Lemma elem_of_sorted (s : gset date) (d : date) : d ∈ sorted s ↔ d ∈ s.
Proof.
  unfold sorted. rewrite merge_sort_Permutation. apply elem_of_elements.
Qed.

Lemma sorted_Sorted (s : gset date) : Sorted Z.le (sorted s).
Proof. apply (Sorted_merge_sort Z.le). Qed.

Lemma sorted_NoDup (s : gset date) : NoDup (sorted s).
Proof.
  unfold sorted. rewrite merge_sort_Permutation. apply NoDup_elements.
Qed.

Lemma sorted_singleton (d : date) : sorted {[ d ]} = [d].
Proof. unfold sorted. by rewrite elements_singleton. Qed.

Lemma first_item_Ok {A} (l : list A) (a : A) :
  first_item l = Ok a ↔ head l = Some a.
Proof. unfold first_item. destruct (head l); naive_solver. Qed.

Lemma last_item_Ok {A} (l : list A) (a : A) :
  last_item l = Ok a ↔ last l = Some a.
Proof. unfold last_item. destruct (last l); naive_solver. Qed.

Lemma head_elem_of {A} (l : list A) (a : A) : head l = Some a → a ∈ l.
Proof. destruct l; simpl; [done|]. intros [= ->]. apply elem_of_cons; auto. Qed.

Lemma last_elem_of {A} (l : list A) (a : A) : last l = Some a → a ∈ l.
Proof.
  rewrite last_Some. intros [l' ->]. apply elem_of_app. right.
  apply elem_of_cons; auto.
Qed.

(** Every date put into the completed range lies in [[start, end)], so the
    additions never leave the span of the two endpoints. *)
Lemma elem_of_completed_dates (start end_ d : date) :
  d ∈ completed_dates start end_ ↔ start ≤ d < end_.
Proof.
  unfold completed_dates, add, sub, timedelta_of. simpl.
  rewrite elem_of_list_to_set, list_elem_of_fmap. split.
  - intros (x & -> & Hx). apply elem_of_range in Hx. lia.
  - intros Hd. exists (d - start). split; [lia|]. apply elem_of_range. lia.
Qed.

(** ** The gap checker on a non-empty sequence *)

(** On a non-empty sequence the function returns, and what it returns is the
    supplied dates lying outside [[start, end)]. *)
Lemma find_missing_dates_nonempty (dates : list date) :
  dates ≠ [] →
  ∃ start end_,
    head dates = Some start ∧ last dates = Some end_ ∧
    find_missing_dates dates
      = Ok (sorted (list_to_set dates ∖ completed_dates start end_)).
Proof.
  intros Hne. unfold find_missing_dates, first_item, last_item.
  destruct dates as [|d0 dates]; [done|].
  destruct (last (d0 :: dates)) as [e|] eqn:He.
  - exists d0, e. by simpl.
  - by apply last_None in He.
Qed.

Lemma elem_of_find_missing_dates (dates r : list date) (start end_ d : date) :
  head dates = Some start → last dates = Some end_ →
  find_missing_dates dates = Ok r →
  d ∈ r ↔ d ∈ dates ∧ ¬ (start ≤ d < end_).
Proof.
  intros Hh Hl. unfold find_missing_dates.
  apply first_item_Ok in Hh. apply last_item_Ok in Hl. rewrite Hh, Hl. simpl.
  intros [= <-]. rewrite elem_of_sorted, elem_of_difference.
  by rewrite elem_of_list_to_set, elem_of_completed_dates.
Qed.

(** The last date of the input is always reported. *)
Lemma find_missing_dates_has_last (dates r : list date) (end_ : date) :
  last dates = Some end_ → find_missing_dates dates = Ok r → end_ ∈ r.
Proof.
  intros Hl Hr. destruct dates as [|d0 dates]; [done|].
  apply (elem_of_find_missing_dates (d0 :: dates) r d0 end_); auto.
  split; [by apply last_elem_of | lia].
Qed.

(** In a sequence sorted ascending every date lies between the first and
    the last. *)
Lemma Sorted_le_bounds (dates : list date) (start end_ d : date) :
  Sorted Z.le dates → head dates = Some start → last dates = Some end_ →
  d ∈ dates → start ≤ d ≤ end_.
Proof.
  intros Hs Hh Hl Hd. apply Sorted_StronglySorted in Hs; [|intros ???; lia].
  destruct dates as [|d0 dates]; [done|]. injection Hh as ->.
  apply last_Some in Hl as [l' Hl]. split.
  - apply StronglySorted_inv in Hs as [_ Hall].
    apply elem_of_cons in Hd as [->|Hd]; [lia|].
    rewrite Forall_forall in Hall. by apply Hall.
  - rewrite Hl in Hs, Hd. apply elem_of_app in Hd as [Hd|Hd].
    + apply (StronglySorted_app_1_elem_of _ _ _ _ _ Hs Hd).
      apply elem_of_cons; auto.
    + apply elem_of_cons in Hd as [->|Hd]; [lia|]. by apply elem_of_nil in Hd.
Qed.

(** X3. On a sequence sorted ascending whose last date is after its first,
    the result is the last date alone, whatever dates are absent between the
    two. *)
Lemma find_missing_dates_ascending (dates : list date) (start end_ : date) :
  Sorted Z.le dates → head dates = Some start → last dates = Some end_ →
  start < end_ →
  find_missing_dates dates = Ok [end_].
Proof.
  intros Hs Hh Hl Hlt. unfold find_missing_dates.
  rewrite (proj2 (first_item_Ok _ _) Hh), (proj2 (last_item_Ok _ _) Hl). simpl.
  f_equal. rewrite <- sorted_singleton. f_equal.
  apply set_eq. intros d.
  rewrite elem_of_difference, elem_of_list_to_set, elem_of_completed_dates,
    elem_of_singleton.
  split.
  - intros [Hd Hn]. pose proof (Sorted_le_bounds _ _ _ _ Hs Hh Hl Hd). lia.
  - intros ->. split; [by apply last_elem_of | lia].
Qed.

Lemma find_missing_dates_single (d : date) : find_missing_dates [d] = Ok [d].
Proof.
  change (find_missing_dates [d])
    with (Ok (sorted (list_to_set [d] ∖ completed_dates d d))).
  assert (list_to_set [d] ∖ completed_dates d d = ({[ d ]} : gset Z)) as ->;
    [|by rewrite sorted_singleton].
  apply set_eq. intros x.
  rewrite elem_of_difference, elem_of_list_to_set, elem_of_completed_dates,
    list_elem_of_singleton, elem_of_singleton.
  split; [tauto | intros ->; split; [done | lia]].
Qed.

(** X5. On every complete, gap-free sequence, whatever its length, the
    result is the one-element list holding its last date. *)
Lemma find_missing_dates_gap_free (dates : list date) :
  gap_free dates →
  ∃ end_, last dates = Some end_ ∧ find_missing_dates dates = Ok [end_].
Proof.
  intros (start & n & ->). exists (start + Z.of_nat n).
  assert (head (seqZ start (Z.of_nat (S n))) = Some start) as Hh.
  { by rewrite seqZ_cons by lia. }
  assert (last (seqZ start (Z.of_nat (S n))) = Some (start + Z.of_nat n)) as Hl.
  { rewrite seqZ_S. apply last_snoc. }
  split; [done|]. unfold find_missing_dates.
  rewrite (proj2 (first_item_Ok _ _) Hh), (proj2 (last_item_Ok _ _) Hl).
  cbn [bind]. f_equal.
  assert (list_to_set (seqZ start (Z.of_nat (S n)))
            ∖ completed_dates start (start + Z.of_nat n)
          = ({[ start + Z.of_nat n ]} : gset Z)) as ->;
    [|by rewrite sorted_singleton].
  apply set_eq. intros d.
  rewrite elem_of_difference, elem_of_list_to_set, elem_of_completed_dates,
    elem_of_seqZ, elem_of_singleton.
  lia.
Qed.

Example ymd2ord_2020_01_01 : jan2020 1 = 737425.
Proof. reflexivity. Qed.

(** ** Claims about the gap checker *)

(** C1 (the code departs from it). The claim: the result is the sorted
    difference "complete range [first, last) minus supplied dates".  The code
    subtracts in the other direction, [set(dates_list) - completed_dates]: on
    2020-01-01, 2020-01-03 it returns 2020-01-03, where the difference the
    claim describes is 2020-01-02. *)
Theorem find_missing_dates_subtracts_wrong_way :
  find_missing_dates [jan2020 1; jan2020 3] = Ok [jan2020 3] ∧
  missing_dates_spec [jan2020 1; jan2020 3] = Ok [jan2020 2] ∧
  find_missing_dates [jan2020 1; jan2020 3]
    ≠ missing_dates_spec [jan2020 1; jan2020 3].
Proof. by vm_compute. Qed.

(** C2 (the code departs from it). The claim: a complete, gap-free sequence
    gives an empty result.  On the gap-free sequence 2020-01-01 .. 2020-01-10
    the code returns the one-element list holding 2020-01-10. *)
Theorem find_missing_dates_gap_free_not_empty :
  gap_free jan_01_to_10 ∧
  find_missing_dates jan_01_to_10 = Ok [jan2020 10] ∧
  missing_dates_spec jan_01_to_10 = Ok [].
Proof.
  split; [|by vm_compute]. exists (jan2020 1), 9%nat. by vm_compute.
Qed.

(** C3 (the code departs from it). The claim: for 2020-01-01 .. 2020-01-10
    with only 2020-01-05 absent the result is [2020-01-05].  The code returns
    [2020-01-10]. *)
Theorem find_missing_dates_interior_gap :
  find_missing_dates jan_01_to_10_without_05 = Ok [jan2020 10] ∧
  missing_dates_spec jan_01_to_10_without_05 = Ok [jan2020 5].
Proof. by vm_compute. Qed.

(** C4 (the code departs from it). The claim: the result never contains the
    last date of the sequence.  On 2020-01-01, 2020-01-02, 2020-01-04 the
    last date 2020-01-04 is in the result (and is all of it). *)
Theorem find_missing_dates_reports_end :
  ∃ r end_,
    find_missing_dates [jan2020 1; jan2020 2; jan2020 4] = Ok r ∧
    last [jan2020 1; jan2020 2; jan2020 4] = Some end_ ∧
    end_ = jan2020 4 ∧ r = [jan2020 4] ∧ end_ ∈ r.
Proof.
  exists [jan2020 4], (jan2020 4). split; [by vm_compute|].
  repeat split. by apply list_elem_of_singleton.
Qed.

(** C5. On the empty sequence [dates_list[0]] raises [IndexError]; nothing in
    the function catches it, so the call raises instead of returning. *)
Theorem find_missing_dates_empty : find_missing_dates [] = Err IndexError.
Proof. reflexivity. Qed.

(** C10. On a non-empty sequence the function returns, every returned date
    is one of the supplied dates, and for an ascending sequence whose last
    date is strictly after its first the result contains that last date, so
    it is not empty. *)
Theorem find_missing_dates_within_input (dates : list date) :
  dates ≠ [] →
  ∃ r, find_missing_dates dates = Ok r ∧
    (∀ d, d ∈ r → d ∈ dates) ∧
    (∀ start end_,
       ascending dates → head dates = Some start → last dates = Some end_ →
       start < end_ → end_ ∈ r ∧ r ≠ []).
Proof.
  intros Hne.
  destruct (find_missing_dates_nonempty dates Hne) as (s & e & Hh & Hl & Hr).
  eexists. split; [exact Hr|]. split.
  - intros d Hd. by apply (elem_of_find_missing_dates _ _ _ _ _ Hh Hl Hr) in Hd as [? _].
  - intros start end_ _ _ Hl' _.
    pose proof (find_missing_dates_has_last _ _ _ Hl' Hr) as Hin.
    split; [done|]. intros Heq. rewrite Heq in Hin. by apply elem_of_nil in Hin.
Qed.

Lemma find_missing_dates_within_input_witness :
  jan_01_to_10_without_05 ≠ [] ∧
  ∃ r, find_missing_dates jan_01_to_10_without_05 = Ok r ∧
    (∀ d, d ∈ r → d ∈ jan_01_to_10_without_05) ∧
    jan2020 10 ∈ r ∧ r ≠ [].
Proof.
  assert (ascending jan_01_to_10_without_05) as Hasc.
  { vm_compute.
    repeat first [apply Sorted_nil | apply Sorted_cons
                 | apply HdRel_nil | apply HdRel_cons];
      discriminate. }
  split; [done|].
  destruct (find_missing_dates_within_input jan_01_to_10_without_05)
    as (r & Hr & Hsub & Hend); [done|].
  exists r. split; [exact Hr|]. split; [exact Hsub|].
  exact (Hend (jan2020 1) (jan2020 10) Hasc eq_refl eq_refl eq_refl).
Defined.

(** ** The reporting loop and the exporter *)

Section notebook_facts.

Context {DataFrame : Type} `{!Frame DataFrame}.
Variable writable : string → bool.

Implicit Types (g : gmap string (value (DataFrame := DataFrame))).
Implicit Types (id2data datadict : gmap Z DataFrame).
Implicit Types (fs : filesystem).

(** *** Cell 6 *)



(** With [missing] unbound the first station already stops the cell: the
    [if] raises [NameError] (unless the lookup or the gap checker raised
    before it), and nothing is printed. *)
Lemma report_unbound_raises id2data id_i ids g out :
  g !! "missing" = None →
  raised (report id2data (id_i :: ids) g out) ≠ None ∧
  stdout (report id2data (id_i :: ids) g out) = out.
Proof.
  intros Hm. simpl.
  destruct (id2data !! id_i) as [data|]; simpl; [|done].
  destruct (find_missing_dates (mess_datum data)) as [r|e]; simpl; [|done].
  rewrite !lookup_insert_ne by done. by rewrite Hm.
Qed.

(** With [missing] left bound to an empty list, as the recorded output of
    the cell shows, every station with at least one measurement gets the
    "no missing days" line, whatever its gaps. *)
Lemma report_stale_empty id2data ids g out :
  g !! "missing" = Some (VDates []) →
  Forall (λ id_i, ∃ data, id2data !! id_i = Some data ∧ mess_datum data ≠ []) ids →
  stdout (report id2data ids g out) = out ++ (no_missing_days <$> ids) ∧
  raised (report id2data ids g out) = None.
Proof.
  revert g out. induction ids as [|id_i ids IH]; intros g out Hm Hall; simpl.
  - by rewrite app_nil_r.
  - apply Forall_cons in Hall as [(data & Hd & Hne) Hall]. rewrite Hd.
    destruct (find_missing_dates_nonempty _ Hne) as (s & e & _ & _ & ->).
    rewrite !lookup_insert_ne by done. rewrite Hm. simpl.
    destruct (IH (<["misssing":=VDates
                     (sorted (list_to_set (mess_datum data) ∖ completed_dates s e))]>
                  (<["data":=VFrame data]> (<["id_i":=VInt id_i]> g)))
                 (out ++ [no_missing_days id_i])) as [-> ->]; [|done|].
    + by rewrite !lookup_insert_ne.
    + by rewrite <- app_assoc.
Qed.

(** *** Cell 7 *)

#[local] Instance full_path_inj path : Inj (=) (=) (full_path path).
Proof.
  intros k1 k2 Heq. unfold full_path, str in Heq.
  apply (inj (String.app path)) in Heq.
  apply (inj (String.app "station_")) in Heq.
  by apply (inj pretty) in Heq.
Qed.

Lemma elem_of_keys datadict id_i :
  id_i ∈ keys datadict ↔ is_Some (datadict !! id_i).
Proof.
  unfold keys. rewrite list_elem_of_fmap. split.
  - intros ([k data] & -> & Hin). apply elem_of_map_to_list in Hin. by exists data.
  - intros [data Hd]. exists (id_i, data). split; [done|].
    by apply elem_of_map_to_list.
Qed.

(** The loop over keys that are all present and all writable ends normally;
    a path of one of the keys holds the text of that key's frame, any other
    path is untouched. *)
Lemma save_data_loop_ok datadict path ks fs :
  Forall (λ k, is_Some (datadict !! k) ∧ writable (full_path path k) = true) ks →
  ∃ fs', save_data_loop writable datadict path ks fs = (fs', Ok tt) ∧
    (∀ k data, k ∈ ks → datadict !! k = Some data →
       fs' !! full_path path k = Some (to_csv_text data (save_data_kwargs data))) ∧
    (∀ p, (∀ k, k ∈ ks → p ≠ full_path path k) → fs' !! p = fs !! p).
Proof.
  revert fs. induction ks as [|k ks IH]; intros fs Hall; simpl.
  - exists fs. split; [done|]. split; [|done]. intros k data Hk.
    by apply elem_of_nil in Hk.
  - apply Forall_cons in Hall as [[[data Hd] Hw] Hall].
    rewrite Hd. unfold to_csv. rewrite Hw.
    destruct (IH (<[full_path path k := to_csv_text data (save_data_kwargs data)]> fs) Hall)
      as (fs' & Hrun & Hin & Hout).
    exists fs'. split; [done|]. split.
    + intros k' data' Hk' Hd'. destruct (decide (k' ∈ ks)) as [Hks|Hks].
      { by apply Hin. }
      apply elem_of_cons in Hk' as [->|Hk']; [|done].
      rewrite Hout.
      * rewrite lookup_insert_eq. congruence.
      * intros k'' Hk'' Heq. apply (inj (full_path path)) in Heq. congruence.
    + intros p Hp. rewrite Hout.
      * apply lookup_insert_ne. intros Heq. apply (Hp k); [|done].
        apply elem_of_cons; auto.
      * intros k' Hk'. apply Hp. apply elem_of_cons; auto.
Qed.

Lemma lookup_station_files datadict path id_i :
  station_files datadict path !! full_path path id_i
  = (λ data, to_csv_text data (save_data_kwargs data)) <$> datadict !! id_i.
Proof.
  unfold station_files. by rewrite (lookup_kmap (full_path path)), lookup_fmap.
Qed.

Lemma save_data_ok datadict path fs :
  (∀ id_i, id_i ∈ dom datadict → writable (full_path path id_i) = true) →
  save_data writable datadict path fs
  = (station_files datadict path ∪ fs, Ok tt).
Proof.
  intros Hw. unfold save_data.
  destruct (save_data_loop_ok datadict path (keys datadict) fs)
    as (fs' & -> & Hin & Hout).
  { apply Forall_forall. intros k Hk. apply elem_of_keys in Hk.
    split; [done|]. apply Hw. by apply elem_of_dom. }
  f_equal. apply map_eq. intros p. rewrite lookup_union.
  destruct (station_files datadict path !! p) as [text|] eqn:Hp.
  - apply lookup_kmap_Some in Hp as (k & -> & Hk); [|apply _].
    apply lookup_fmap_Some in Hk as (data & <- & Hd).
    rewrite (Hin k data); [by destruct (fs !! _)| |done].
    apply elem_of_keys. by exists data.
  - rewrite (left_id_L None _). apply Hout. intros k Hk ->.
    rewrite lookup_station_files in Hp. apply elem_of_keys in Hk as [data Hd].
    by rewrite Hd in Hp.
Qed.

Lemma dom_station_files datadict path :
  dom (station_files datadict path) = set_map (full_path path) (dom datadict).
Proof.
  unfold station_files. by rewrite (dom_kmap_L (full_path path)), dom_fmap_L.
Qed.

Lemma size_station_files datadict path :
  size (station_files datadict path) = size datadict.
Proof.
  unfold station_files, kmap. rewrite map_size_list_to_map.
  - by rewrite length_fmap, length_map_to_list, map_size_fmap.
  - rewrite <- list_fmap_compose.
    erewrite (list_fmap_ext _ (full_path path ∘ fst)); [|by intros ? []].
    rewrite list_fmap_compose. apply (NoDup_fmap_2 _).
    apply NoDup_fst_map_to_list.
Qed.

(** An export stops at the first station whose file cannot be opened:
    the exception is not caught. *)
Lemma save_data_loop_unwritable datadict path ks fs :
  Forall (λ k, is_Some (datadict !! k)) ks →
  Exists (λ k, writable (full_path path k) = false) ks →
  (save_data_loop writable datadict path ks fs).2 = Err OSError.
Proof.
  revert fs. induction ks as [|k ks IH]; intros fs Hall Hex; simpl.
  - by apply Exists_nil in Hex.
  - apply Forall_cons in Hall as [[data Hd] Hall]. rewrite Hd. unfold to_csv.
    destruct (writable (full_path path k)) eqn:Hw; [|done].
    apply Exists_cons in Hex as [Hk|Hex]; [congruence|]. by apply IH.
Qed.

(** *** Claims about the reporting loop and the exporter *)

(** C6. When every station file can be opened for writing, [save_data]
    ends normally and returns [None]; afterwards the file system holds, on
    top of what it held, exactly one file per key of the mapping, at
    [path + 'station_' + str(id_i)], whose content is what [to_csv] gives
    for that station's frame with [sep=';'], the header row (the default
    [header=True]), all columns and [index=False]. *)
Theorem save_data_one_file_per_station datadict path fs :
  (∀ id_i, id_i ∈ dom datadict → writable (full_path path id_i) = true) →
  save_data writable datadict path fs
    = (station_files datadict path ∪ fs, Ok tt) ∧
  size (station_files datadict path) = size datadict ∧
  (∀ p, p ∈ dom (station_files datadict path) ↔
        ∃ id_i, id_i ∈ dom datadict ∧ p = path +:+ "station_" +:+ str id_i) ∧
  (∀ id_i data, datadict !! id_i = Some data →
     station_files datadict path !! (path +:+ "station_" +:+ str id_i)
     = Some (to_csv_text data
               {| kw_sep := ";"; kw_columns := Some (columns data);
                  kw_header := true; kw_index := false |})).
Proof.
  intros Hw. split; [by apply save_data_ok|].
  split; [apply size_station_files|]. split.
  - intros p. rewrite dom_station_files, elem_of_map.
    split; intros (id_i & ? & ?); exists id_i; by split.
  - intros id_i data Hd.
    change (path +:+ "station_" +:+ str id_i) with (full_path path id_i).
    by rewrite lookup_station_files, Hd.
Qed.

(** C7. On the empty mapping [save_data] writes nothing and ends normally,
    whether or not anything could be written. *)
Theorem save_data_empty path fs :
  save_data writable ∅ path fs = (fs, Ok tt).
Proof. unfold save_data, keys. by rewrite map_to_list_empty. Qed.


End notebook_facts.

(** ** The claims at concrete inputs *)

Lemma save_data_one_file_per_station_witness :
  (∀ id_i, id_i ∈ dom two_stations →
     (λ _ : string, true) (full_path default_path id_i) = true) ∧
  save_data (λ _, true) two_stations default_path ∅
    = (station_files two_stations default_path ∪ ∅, Ok tt) ∧
  size (station_files two_stations default_path) = size two_stations.
Proof.
  split; [done|].
  destruct (save_data_one_file_per_station (λ _, true) two_stations default_path ∅)
    as (Hrun & Hsize & _); [done|].
  by split.
Defined.


(** The export of the two example stations, evaluated. *)
Example save_data_two_stations :
  dom (save_data (λ _, true) two_stations default_path ∅).1
  = {[ "./data/station_403"; "./data/station_433" ]}.
Proof.
  rewrite (save_data_ok (λ _, true) two_stations default_path ∅ (λ _ _, eq_refl)).
  simpl. rewrite dom_union_L, dom_empty_L, dom_station_files, (right_id_L ∅ (∪)).
  unfold two_stations. rewrite !dom_insert_L, dom_empty_L. set_solver.
Qed.

(** The reporting cell on the two example stations: started from the names
    the notebook binds, it stops with [NameError] before printing. *)
Example report_two_stations_fresh :
  raised (report two_stations [403; 433] notebook_globals []) = Some NameError ∧
  stdout (report two_stations [403; 433] notebook_globals []) = [].
Proof. by vm_compute. Qed.

(** Started with [missing] holding an empty list, it prints the "no missing
    days" line for both, although station 403 lacks 2020-01-05. *)
Example report_two_stations_stale :
  stdout (report two_stations [403; 433]
            (<["missing" := VDates []]> notebook_globals) [])
  = [no_missing_days 403; no_missing_days 433].
Proof. by vm_compute. Qed.

(** ** More about the gap checker *)

Lemma Sorted_le_NoDup_lt (l : list Z) : Sorted Z.le l → NoDup l → Sorted Z.lt l.
Proof.
  induction 1 as [|a l Hs IH Hhd]; intros Hnd; [constructor|].
  apply NoDup_cons in Hnd as [Hnotin Hnd]. constructor; [by apply IH|].
  destruct Hhd as [|b l' Hab]; constructor.
  assert (a ≠ b); [|lia]. intros ->. apply Hnotin, elem_of_cons. auto.
Qed.

Lemma find_missing_dates_Err (dates : list date) (e : exn) :
  find_missing_dates dates = Err e → e = IndexError.
Proof.
  destruct dates as [|d dates]; [by intros [= <-]|]. intros He.
  destruct (find_missing_dates_nonempty (d :: dates)) as (? & ? & _ & _ & Hr);
    [done|congruence].
Qed.

(** X1. With [start] the first and [end_] the last of the supplied dates, the
    call returns, and its result is a strictly ascending list holding exactly
    the supplied dates that lie outside [[start, end_)]. *)
Theorem find_missing_dates_characterised (dates : list date) (start end_ : date) :
  head dates = Some start → last dates = Some end_ →
  ∃ r, find_missing_dates dates = Ok r ∧
    Sorted Z.lt r ∧
    ∀ d, d ∈ r ↔ d ∈ dates ∧ ¬ (start ≤ d < end_).
Proof.
  intros Hh Hl.
  destruct (find_missing_dates_nonempty dates) as (s & e & Hh' & Hl' & Hr).
  { by destruct dates. }
  assert (s = start) as -> by congruence. assert (e = end_) as -> by congruence.
  eexists. split; [exact Hr|]. split.
  - apply Sorted_le_NoDup_lt; [apply sorted_Sorted | apply sorted_NoDup].
  - intros d. by apply (elem_of_find_missing_dates dates _ start end_).
Qed.

Lemma find_missing_dates_characterised_witness :
  head jan_01_to_10_without_05 = Some (jan2020 1) ∧
  last jan_01_to_10_without_05 = Some (jan2020 10) ∧
  ∃ r, find_missing_dates jan_01_to_10_without_05 = Ok r ∧
    Sorted Z.lt r ∧
    ∀ d, d ∈ r ↔ d ∈ jan_01_to_10_without_05 ∧ ¬ (jan2020 1 ≤ d < jan2020 10).
Proof.
  split; [reflexivity|]. split; [reflexivity|].
  apply (find_missing_dates_characterised jan_01_to_10_without_05); reflexivity.
Defined.


Lemma find_missing_dates_ascending_witness :
  Sorted Z.le [jan2020 1; jan2020 2; jan2020 7] ∧
  jan2020 1 < jan2020 7 ∧
  find_missing_dates [jan2020 1; jan2020 2; jan2020 7] = Ok [jan2020 7].
Proof.
  assert (Sorted Z.le [jan2020 1; jan2020 2; jan2020 7]) as Hasc.
  { vm_compute.
    repeat first [apply Sorted_nil | apply Sorted_cons
                 | apply HdRel_nil | apply HdRel_cons];
      discriminate. }
  split; [exact Hasc|]. split; [reflexivity|].
  apply (find_missing_dates_ascending _ (jan2020 1) (jan2020 7) Hasc);
    reflexivity.
Defined.

(** X4. When the last date is not after the first (one date only, or a
    sequence that does not ascend), [range] is empty and nothing is taken
    away: the result is every distinct supplied date, in ascending order. *)
Theorem find_missing_dates_end_not_after_start
    (dates : list date) (start end_ : date) :
  head dates = Some start → last dates = Some end_ → end_ ≤ start →
  find_missing_dates dates = Ok (sorted (list_to_set dates)).
Proof.
  intros Hh Hl Hle. unfold find_missing_dates.
  rewrite (proj2 (first_item_Ok _ _) Hh), (proj2 (last_item_Ok _ _) Hl).
  cbn [bind]. do 2 f_equal. apply set_eq. intros d.
  rewrite elem_of_difference, elem_of_completed_dates. split; [tauto|].
  intros Hd. split; [done|lia].
Qed.

Lemma find_missing_dates_end_not_after_start_witness :
  jan2020 2 ≤ jan2020 9 ∧
  find_missing_dates [jan2020 9; jan2020 4; jan2020 9; jan2020 2]
  = Ok [jan2020 2; jan2020 4; jan2020 9].
Proof.
  split; [by vm_compute|].
  rewrite (find_missing_dates_end_not_after_start _ (jan2020 9) (jan2020 2));
    [by vm_compute|reflexivity|reflexivity|by vm_compute].
Defined.

Lemma find_missing_dates_gap_free_witness :
  gap_free jan_01_to_10 ∧
  ∃ end_, last jan_01_to_10 = Some end_ ∧
    find_missing_dates jan_01_to_10 = Ok [end_].
Proof.
  assert (gap_free jan_01_to_10) as Hgf.
  { exists (jan2020 1), 9%nat. by vm_compute. }
  split; [exact Hgf|].
  exact (find_missing_dates_gap_free jan_01_to_10 Hgf).
Defined.

(** X6. The completed range holds exactly the dates from [start] up to but
    not including [end_], that is [(end - start).days] of them and none when
    [end_] is not after [start]. *)
Theorem completed_dates_range (start end_ : date) :
  (∀ d, d ∈ completed_dates start end_ ↔ start ≤ d < end_) ∧
  size (completed_dates start end_) = Z.to_nat (end_ - start).
Proof.
  split; [intros d; apply elem_of_completed_dates|].
  unfold completed_dates, range, sub, add, timedelta_of. simpl.
  rewrite size_list_to_set.
  - by rewrite length_fmap, length_seqZ.
  - apply NoDup_fmap_2; [|apply NoDup_seqZ]. intros x y Hxy. lia.
Qed.

(** ** More about the reporting loop *)

Section report_facts.

Context {DataFrame : Type} `{!Frame DataFrame}.

Implicit Types (g : gmap string (value (DataFrame := DataFrame))).
Implicit Types (id2data : gmap Z DataFrame).

(** The loop over [ids1 ++ ids2] is the loop over [ids1] followed, when that
    one ended normally, by the loop over [ids2]. *)
Lemma report_app id2data ids1 ids2 g out :
  report id2data (ids1 ++ ids2) g out
  = match raised (report id2data ids1 g out) with
    | None =>
      report id2data ids2 (globals (report id2data ids1 g out))
        (stdout (report id2data ids1 g out))
    | Some _ => report id2data ids1 g out
    end.
Proof.
  revert g out. induction ids1 as [|id_i ids1 IH]; intros g out; simpl; [done|].
  destruct (id2data !! id_i) as [data|]; simpl; [|done].
  destruct (find_missing_dates (mess_datum data)) as [r|e]; simpl; [|done].
  destruct (_ !! "missing") as [missing|]; simpl; [|done].
  destruct (truth missing) as [[]|]; simpl; [apply IH..|done].
Qed.

Lemma truth_Err (v : value (DataFrame := DataFrame)) (e : exn) :
  truth v = Err e → e = ValueError.
Proof. destruct v; simpl; congruence. Qed.

(** The run of the loop when [missing] already holds a value with a truth
    value: every station that has a series with at least one date gets the
    lines of the branch that value selects. *)
Lemma report_stale id2data ids g out v b :
  g !! "missing" = Some v → truth v = Ok b →
  Forall (λ id_i, ∃ data, id2data !! id_i = Some data ∧ mess_datum data ≠ []) ids →
  stdout (report id2data ids g out)
  = out ++ (ids ≫= λ id_i,
      if b then [following_days_are_missing id_i; print_value v]
      else [no_missing_days id_i]) ∧
  raised (report id2data ids g out) = None.
Proof.
  revert g out. induction ids as [|id_i ids IH]; intros g out Hm Ht Hall; simpl.
  - by rewrite app_nil_r.
  - apply Forall_cons in Hall as [(data & Hd & Hne) Hall]. rewrite Hd.
    destruct (find_missing_dates_nonempty _ Hne) as (s & e & _ & _ & ->).
    rewrite !lookup_insert_ne by done. rewrite Hm, Ht.
    destruct b.
    + edestruct IH as [-> ->]; [|done..|].
      * by rewrite !lookup_insert_ne.
      * by rewrite <- app_assoc.
    + edestruct IH as [-> ->]; [|done..|].
      * by rewrite !lookup_insert_ne.
      * by rewrite <- app_assoc.
Qed.

(** X7. An exception ends the loop: once the run over the first stations has
    raised, the stations after them are not visited, and nothing more is
    printed or assigned. *)
Theorem report_stops_at_exception id2data ids1 ids2 g out e :
  raised (report id2data ids1 g out) = Some e →
  report id2data (ids1 ++ ids2) g out = report id2data ids1 g out.
Proof. intros He. by rewrite report_app, He. Qed.

(** X8. A station without any measurement stops the loop with [IndexError]
    (raised by the gap checker on [dates_list[0]]); what the stations before
    it printed stays printed. *)
Theorem report_empty_series_raises id2data ids1 id_i ids2 g out data :
  raised (report id2data ids1 g out) = None →
  id2data !! id_i = Some data → mess_datum data = [] →
  raised (report id2data (ids1 ++ id_i :: ids2) g out) = Some IndexError ∧
  stdout (report id2data (ids1 ++ id_i :: ids2) g out)
  = stdout (report id2data ids1 g out).
Proof.
  intros Hok Hd Hempty. rewrite report_app, Hok. simpl.
  by rewrite Hd, Hempty.
Qed.

(** X9. A station id that is not a key of [id2data] stops the loop with
    [KeyError]; what the stations before it printed stays printed. *)
Theorem report_missing_key_raises id2data ids1 id_i ids2 g out :
  raised (report id2data ids1 g out) = None →
  id2data !! id_i = None →
  raised (report id2data (ids1 ++ id_i :: ids2) g out) = Some KeyError ∧
  stdout (report id2data (ids1 ++ id_i :: ids2) g out)
  = stdout (report id2data ids1 g out).
Proof. intros Hok Hd. rewrite report_app, Hok. simpl. by rewrite Hd. Qed.

(** X10. Run where [missing] was never assigned, the cell stops at its first
    station with [NameError] and prints nothing; by then the result of the
    gap check is stored under the name [misssing]. *)
Theorem report_unbound_NameError id2data id_i ids g out data :
  g !! "missing" = None →
  id2data !! id_i = Some data → mess_datum data ≠ [] →
  ∃ r, find_missing_dates (mess_datum data) = Ok r ∧
    raised (report id2data (id_i :: ids) g out) = Some NameError ∧
    stdout (report id2data (id_i :: ids) g out) = out ∧
    globals (report id2data (id_i :: ids) g out) !! "misssing" = Some (VDates r).
Proof.
  intros Hm Hd Hne. simpl. rewrite Hd.
  destruct (find_missing_dates_nonempty _ Hne) as (s & e & _ & _ & Hr).
  rewrite Hr. eexists. split; [done|].
  rewrite !lookup_insert_ne by done. rewrite Hm. simpl.
  by rewrite lookup_insert_eq.
Qed.

(** X11. Run where [missing] holds a value that is not true (an empty list,
    as the output kept in the notebook shows), the cell prints the "no
    missing days" line for every station, one per station in the order of
    [ids], whatever the series are, and ends normally. *)
Theorem report_stale_false id2data ids g out v :
  g !! "missing" = Some v → truth v = Ok false →
  Forall (λ id_i, ∃ data, id2data !! id_i = Some data ∧ mess_datum data ≠ []) ids →
  stdout (report id2data ids g out) = out ++ (no_missing_days <$> ids) ∧
  raised (report id2data ids g out) = None.
Proof.
  intros Hm Ht Hall.
  destruct (report_stale id2data ids g out v false Hm Ht Hall) as [-> ->].
  split; [|done]. f_equal.
Qed.

(** X12. Run where [missing] holds a true value, the cell prints for every
    station the header line followed by that same old value: what the gap
    check found for the station is never printed. *)
Theorem report_stale_true id2data ids g out v :
  g !! "missing" = Some v → truth v = Ok true →
  Forall (λ id_i, ∃ data, id2data !! id_i = Some data ∧ mess_datum data ≠ []) ids →
  stdout (report id2data ids g out)
  = out ++ (ids ≫= λ id_i, [following_days_are_missing id_i; print_value v]) ∧
  raised (report id2data ids g out) = None.
Proof. intros Hm Ht Hall. exact (report_stale id2data ids g out v true Hm Ht Hall). Qed.

(** The loop raises [KeyError] only for an id that [id2data] lacks. *)
Lemma report_no_KeyError id2data ids g out :
  Forall (λ id_i, is_Some (id2data !! id_i)) ids →
  raised (report id2data ids g out) ≠ Some KeyError.
Proof.
  revert g out. induction ids as [|id_i ids IH]; intros g out Hall; simpl;
    [done|].
  apply Forall_cons in Hall as [[data Hd] Hall]. rewrite Hd.
  destruct (find_missing_dates (mess_datum data)) as [r|e] eqn:Hr; simpl.
  - destruct (_ !! "missing") as [missing|]; simpl; [|done].
    destruct (truth missing) as [[]|e] eqn:Ht; simpl; [by apply IH..|].
    by rewrite (truth_Err _ _ Ht).
  - by rewrite (find_missing_dates_Err _ _ Hr).
Qed.

End report_facts.

(** ** More about the exporter *)

Section save_data_facts.

Context {DataFrame : Type} `{!Frame DataFrame}.
Variable writable : string → bool.

Implicit Types (datadict : gmap Z DataFrame) (fs : filesystem).

Lemma full_path_eq path id1 id2 :
  full_path path id1 = full_path path id2 → id1 = id2.
Proof.
  unfold full_path, str. intros Heq.
  apply (inj (String.app path)) in Heq.
  apply (inj (String.app "station_")) in Heq.
  by apply (inj pretty) in Heq.
Qed.

(** Whatever can be written, a path either keeps its content or is the file
    of a visited station and holds that station's text. *)
Lemma save_data_loop_changes datadict path ks fs p :
  (save_data_loop writable datadict path ks fs).1 !! p = fs !! p ∨
  ∃ k data, k ∈ ks ∧ datadict !! k = Some data ∧ p = full_path path k ∧
    (save_data_loop writable datadict path ks fs).1 !! p
    = Some (to_csv_text data (save_data_kwargs data)).
Proof.
  revert fs. induction ks as [|k ks IH]; intros fs; simpl; [by left|].
  destruct (datadict !! k) as [data|] eqn:Hd; simpl; [|by left].
  unfold to_csv. destruct (writable (full_path path k)); simpl; [|by left].
  destruct (IH (<[full_path path k := to_csv_text data (save_data_kwargs data)]> fs))
    as [Hsame|(k' & data' & Hk' & Hd' & -> & Hp)].
  - rewrite Hsame. destruct (decide (p = full_path path k)) as [->|Hne].
    + right. exists k, data. rewrite lookup_insert_eq.
      split; [apply elem_of_cons; auto|done].
    + left. by rewrite lookup_insert_ne.
  - right. exists k', data'. split; [apply elem_of_cons; auto|done].
Qed.

Lemma save_data_loop_Err datadict path ks fs e :
  Forall (λ k, is_Some (datadict !! k)) ks →
  (save_data_loop writable datadict path ks fs).2 = Err e → e = OSError.
Proof.
  revert fs. induction ks as [|k ks IH]; intros fs Hall; simpl; [done|].
  apply Forall_cons in Hall as [[data Hd] Hall]. rewrite Hd. unfold to_csv.
  destruct (writable (full_path path k)); simpl; [by apply IH|congruence].
Qed.

Lemma keys_present datadict :
  Forall (λ k, is_Some (datadict !! k)) (keys datadict).
Proof. apply Forall_forall. intros k Hk. by apply elem_of_keys. Qed.

(** X13. Two different station ids never get the same file: the path built
    from [path], ['station_'] and [str(id_i)] determines the id. *)
Theorem station_paths_distinct path id1 id2 :
  id1 ≠ id2 →
  path +:+ "station_" +:+ str id1 ≠ path +:+ "station_" +:+ str id2.
Proof. intros Hne Heq. by apply Hne, (full_path_eq path). Qed.

(** X14. When the file of some station of the mapping cannot be opened, the
    call raises [OSError]: the exception of [to_csv] is not caught and there
    is no second attempt. *)
Theorem save_data_unwritable_raises datadict path fs id_i :
  id_i ∈ dom datadict → writable (full_path path id_i) = false →
  (save_data writable datadict path fs).2 = Err OSError.
Proof.
  intros Hin Hw. unfold save_data.
  apply save_data_loop_unwritable; [apply keys_present|].
  apply Exists_exists. exists id_i. split; [|done].
  apply elem_of_keys. by apply elem_of_dom.
Qed.

(** X15. [OSError] is the only exception the call can raise: [datadict[id_i]]
    never fails, since the ids come from [datadict.keys()]. *)
Theorem save_data_raises_only_OSError datadict path fs e :
  (save_data writable datadict path fs).2 = Err e → e = OSError.
Proof. apply save_data_loop_Err, keys_present. Qed.

(** X16. Whether the call ends normally or raises part-way, it changes
    nothing but station files: every path either keeps the content it had,
    or is the file of a station of the mapping and holds the whole text of
    that station's frame. *)
Theorem save_data_changes_only_station_files datadict path fs p :
  (save_data writable datadict path fs).1 !! p = fs !! p ∨
  ∃ id_i data, datadict !! id_i = Some data ∧
    p = path +:+ "station_" +:+ str id_i ∧
    (save_data writable datadict path fs).1 !! p
    = Some (to_csv_text data
              {| kw_sep := ";"; kw_columns := Some (columns data);
                 kw_header := true; kw_index := false |}).
Proof.
  unfold save_data.
  destruct (save_data_loop_changes datadict path (keys datadict) fs p)
    as [Hsame|(k & data & _ & Hd & -> & Hp)]; [by left|].
  right. by exists k, data.
Qed.

(** X17. Exporting twice is the same as exporting once: when the station
    files can be written, a second call on the file system the first one
    left ends normally and leaves it as it is. *)
Theorem save_data_twice datadict path fs :
  (∀ id_i, id_i ∈ dom datadict → writable (full_path path id_i) = true) →
  save_data writable datadict path (save_data writable datadict path fs).1
  = ((save_data writable datadict path fs).1, Ok tt).
Proof.
  intros Hw. rewrite !(save_data_ok writable) by done. simpl.
  by rewrite (assoc_L (∪)), (idemp_L (∪)).
Qed.

End save_data_facts.

(** ** The loader, and the cells run one after the other *)

Section loader_facts.

Context {DataFrame : Type} `{!Frame DataFrame}.
Variable measures_for_id : Z → result DataFrame.
Variable writable : string → bool.

Implicit Types (id2data : gmap Z DataFrame) (ids : list Z).

Lemma load_loop_app ids1 ids2 id2data :
  load_loop measures_for_id (ids1 ++ ids2) id2data
  = match (load_loop measures_for_id ids1 id2data).2 with
    | Ok _ =>
      load_loop measures_for_id ids2 (load_loop measures_for_id ids1 id2data).1
    | Err _ => load_loop measures_for_id ids1 id2data
    end.
Proof.
  revert id2data. induction ids1 as [|id_i ids1 IH]; intros id2data; simpl;
    [done|].
  destruct (measures_for_id id_i); simpl; [apply IH|done].
Qed.

Lemma load_loop_ok ids id2data :
  Forall (λ id_i, ∃ data, measures_for_id id_i = Ok data) ids →
  ∃ id2data', load_loop measures_for_id ids id2data = (id2data', Ok tt) ∧
    (∀ k data, k ∈ ids → measures_for_id k = Ok data → id2data' !! k = Some data) ∧
    (∀ k, k ∉ ids → id2data' !! k = id2data !! k).
Proof.
  revert id2data. induction ids as [|id_i ids IH]; intros id2data Hall; simpl.
  - exists id2data. split; [done|]. split; [|done]. intros k data Hk.
    by apply elem_of_nil in Hk.
  - apply Forall_cons in Hall as [[data Hd] Hall]. rewrite Hd.
    destruct (IH (<[id_i := data]> id2data) Hall) as (m & Hrun & Hin & Hout).
    exists m. split; [done|]. split.
    + intros k data' Hk Hd'. destruct (decide (k ∈ ids)) as [Hks|Hks];
        [by apply Hin|].
      apply elem_of_cons in Hk as [->|Hk]; [|done].
      rewrite (Hout _ Hks), lookup_insert_eq. congruence.
    + intros k Hk. apply not_elem_of_cons in Hk as [Hne Hk].
      by rewrite (Hout _ Hk), lookup_insert_ne.
Qed.

Lemma load_loop_inv ids id2data id2data' :
  load_loop measures_for_id ids id2data = (id2data', Ok tt) →
  Forall (λ id_i, ∃ data, measures_for_id id_i = Ok data) ids.
Proof.
  revert id2data. induction ids as [|id_i ids IH]; intros id2data; simpl;
    [by constructor|].
  destruct (measures_for_id id_i) as [data|e] eqn:Hd; [|done].
  intros Hrun. constructor; [by exists data|by eapply IH].
Qed.

Lemma load_dom ids id2data :
  load measures_for_id ids = (id2data, Ok tt) → dom id2data = list_to_set ids.
Proof.
  intros Hrun. pose proof (load_loop_inv _ _ _ Hrun) as Hall.
  destruct (load_loop_ok ids ∅ Hall) as (m & Hrun' & Hin & Hout).
  unfold load in Hrun. assert (m = id2data) as -> by congruence.
  apply set_eq. intros k. rewrite elem_of_dom, elem_of_list_to_set. split.
  - intros [data Hk]. destruct (decide (k ∈ ids)) as [|Hnotin]; [done|].
    by rewrite (Hout _ Hnotin) in Hk.
  - intros Hk. rewrite Forall_forall in Hall.
    destruct (Hall k Hk) as [data Hd]. exists data. by apply Hin.
Qed.

(** X18. When the database answers for every id, the loader ends normally
    and [id2data] has exactly the ids as keys (an id listed twice gives one
    entry), each with the frame the database gave for it. *)
Theorem load_collects_every_station ids :
  (∀ id_i, id_i ∈ ids → ∃ data, measures_for_id id_i = Ok data) →
  ∃ id2data, load measures_for_id ids = (id2data, Ok tt) ∧
    dom id2data = list_to_set ids ∧
    ∀ id_i data, id_i ∈ ids → measures_for_id id_i = Ok data →
      id2data !! id_i = Some data.
Proof.
  intros Hall. apply Forall_forall in Hall.
  destruct (load_loop_ok ids ∅ Hall) as (m & Hrun & Hin & Hout).
  exists m. split; [done|]. split; [by apply load_dom|done].
Qed.

(** X19. An exception of the database layer ends the loader and is not
    caught; [id2data] then holds what the ids before the failing one gave,
    and nothing for the ids after it. *)
Theorem load_stops_at_database_error ids1 id_i ids2 e :
  (∀ k, k ∈ ids1 → ∃ data, measures_for_id k = Ok data) →
  measures_for_id id_i = Err e →
  ∃ id2data, load measures_for_id ids1 = (id2data, Ok tt) ∧
    load measures_for_id (ids1 ++ id_i :: ids2) = (id2data, Err e).
Proof.
  intros Hall He. apply Forall_forall in Hall.
  destruct (load_loop_ok ids1 ∅ Hall) as (m & Hrun & _).
  exists m. split; [done|]. unfold load. rewrite load_loop_app, Hrun. simpl.
  by rewrite He.
Qed.

(** X20. Run on the dict the loader built from the same [ids], the reporting
    loop never raises [KeyError]: every [id2data[id_i]] finds its frame. *)
Theorem report_after_load_no_KeyError ids id2data
    (g : gmap string (value (DataFrame := DataFrame))) out :
  load measures_for_id ids = (id2data, Ok tt) →
  raised (report id2data ids g out) ≠ Some KeyError.
Proof.
  intros Hrun. apply report_no_KeyError. apply Forall_forall. intros k Hk.
  apply elem_of_dom. rewrite (load_dom _ _ Hrun). by apply elem_of_list_to_set.
Qed.

(** X21. Cell 8, [save_data(id2data)], on the dict the loader built: when the
    files can be opened it ends normally, and the files it leaves are exactly
    [./data/station_<id>] for the ids of [ids], one per distinct id. *)
Theorem save_data_after_load ids id2data fs :
  load measures_for_id ids = (id2data, Ok tt) →
  (∀ id_i, id_i ∈ ids → writable ("./data/station_" +:+ str id_i) = true) →
  save_data writable id2data default_path fs
    = (station_files id2data default_path ∪ fs, Ok tt) ∧
  (∀ p, p ∈ dom (station_files id2data default_path) ↔
        ∃ id_i, id_i ∈ ids ∧ p = "./data/station_" +:+ str id_i) ∧
  size (station_files id2data default_path) = size (list_to_set ids : gset Z).
Proof.
  intros Hrun Hw. pose proof (load_dom _ _ Hrun) as Hdom. split; [|split].
  - apply save_data_ok. intros id_i Hin. apply Hw.
    rewrite Hdom in Hin. by apply elem_of_list_to_set in Hin.
  - intros p. rewrite dom_station_files, elem_of_map, Hdom.
    split.
    + intros (id_i & Hp & Hin). exists id_i.
      by apply elem_of_list_to_set in Hin.
    + intros (id_i & Hin & Hp). exists id_i. split; [done|].
      by apply elem_of_list_to_set.
  - by rewrite size_station_files, <- Hdom, size_dom.
Qed.

End loader_facts.

(** ** The further properties at concrete inputs *)

Lemma two_stations_have_dates :
  Forall (λ id_i, ∃ data, two_stations !! id_i = Some data ∧ mess_datum data ≠ [])
    [403; 433].
Proof.
  constructor; [by exists station_403|].
  constructor; [by exists station_433|]. constructor.
Qed.

Lemma report_stops_at_exception_witness :
  raised (report two_stations [403] notebook_globals []) = Some NameError ∧
  report two_stations ([403] ++ [433]) notebook_globals []
  = report two_stations [403] notebook_globals [].
Proof.
  assert (raised (report two_stations [403] notebook_globals []) = Some NameError)
    as He by (by vm_compute).
  split; [exact He|].
  exact (report_stops_at_exception two_stations [403] [433] notebook_globals []
           NameError He).
Defined.

Lemma report_empty_series_raises_witness :
  raised (report (<[7 := empty_station]> two_stations) []
            (<["missing" := VDates []]> notebook_globals) []) = None ∧
  raised (report (<[7 := empty_station]> two_stations) ([] ++ 7 :: [403])
            (<["missing" := VDates []]> notebook_globals) [])
  = Some IndexError.
Proof.
  split; [reflexivity|].
  apply (report_empty_series_raises (<[7 := empty_station]> two_stations) [] 7
           [403] (<["missing" := VDates []]> notebook_globals) [] empty_station);
    [reflexivity | by vm_compute | reflexivity].
Defined.

Lemma report_missing_key_raises_witness :
  two_stations !! 999 = None ∧
  raised (report two_stations ([] ++ 999 :: [403]) notebook_globals [])
  = Some KeyError.
Proof.
  split; [by vm_compute|].
  apply (report_missing_key_raises two_stations [] 999 [403] notebook_globals []);
    [reflexivity | by vm_compute].
Defined.

Lemma report_unbound_NameError_witness :
  notebook_globals !! "missing" = None ∧
  ∃ r, find_missing_dates (mess_datum station_403) = Ok r ∧
    raised (report two_stations [403; 433] notebook_globals []) = Some NameError ∧
    stdout (report two_stations [403; 433] notebook_globals []) = [] ∧
    globals (report two_stations [403; 433] notebook_globals []) !! "misssing"
    = Some (VDates r).
Proof.
  split; [by vm_compute|].
  apply (report_unbound_NameError two_stations 403 [433] notebook_globals []
           station_403); [by vm_compute | by vm_compute | done].
Defined.

Lemma report_stale_false_witness :
  truth (VDates [] : value (DataFrame := table)) = Ok false ∧
  stdout (report two_stations [403; 433]
            (<["missing" := VDates []]> notebook_globals) [])
  = [] ++ (no_missing_days <$> [403; 433]).
Proof.
  split; [reflexivity|].
  apply (report_stale_false two_stations [403; 433]
           (<["missing" := VDates []]> notebook_globals) [] (VDates []));
    [by vm_compute | reflexivity | apply two_stations_have_dates].
Defined.

Lemma report_stale_true_witness :
  truth (VDates [jan2020 3] : value (DataFrame := table)) = Ok true ∧
  stdout (report two_stations [403; 433]
            (<["missing" := VDates [jan2020 3]]> notebook_globals) [])
  = [] ++ ([403; 433] ≫= λ id_i,
             [following_days_are_missing id_i; print_value (VDates [jan2020 3])]).
Proof.
  split; [reflexivity|].
  apply (report_stale_true two_stations [403; 433]
           (<["missing" := VDates [jan2020 3]]> notebook_globals) []
           (VDates [jan2020 3]));
    [by vm_compute | reflexivity | apply two_stations_have_dates].
Defined.

Lemma station_paths_distinct_witness :
  (403 : Z) ≠ 433 ∧
  "./data/" +:+ "station_" +:+ str 403 ≠ "./data/" +:+ "station_" +:+ str 433.
Proof.
  split; [done|]. by apply (station_paths_distinct "./data/" 403 433).
Defined.

Lemma save_data_unwritable_raises_witness :
  403 ∈ dom two_stations ∧
  (save_data (λ _, false) two_stations default_path ∅).2 = Err OSError.
Proof.
  assert (403 ∈ dom two_stations) as Hin.
  { apply elem_of_dom. by exists station_403. }
  split; [exact Hin|].
  by apply (save_data_unwritable_raises (λ _, false) two_stations default_path ∅ 403).
Defined.

Lemma save_data_raises_only_OSError_witness :
  (save_data (λ _, false) two_stations default_path ∅).2 = Err OSError ∧
  OSError = OSError.
Proof.
  assert ((save_data (λ _, false) two_stations default_path ∅).2 = Err OSError)
    as He by (by vm_compute).
  split; [exact He|].
  symmetry.
  exact (save_data_raises_only_OSError (λ _, false) two_stations default_path ∅
           OSError He).
Defined.

Lemma save_data_twice_witness :
  (∀ id_i, id_i ∈ dom two_stations →
     (λ _ : string, true) (full_path default_path id_i) = true) ∧
  save_data (λ _, true) two_stations default_path
    (save_data (λ _, true) two_stations default_path ∅).1
  = ((save_data (λ _, true) two_stations default_path ∅).1, Ok tt).
Proof.
  split; [done|].
  by apply (save_data_twice (λ _, true) two_stations default_path ∅).
Defined.

Lemma two_stations_db_answers :
  ∀ id_i, id_i ∈ [403; 433; 403] → ∃ data, two_stations_db id_i = Ok data.
Proof.
  intros id_i _. unfold two_stations_db.
  destruct (id_i =? 403); [by eexists|]. destruct (id_i =? 433); by eexists.
Qed.

Lemma load_collects_every_station_witness :
  (∀ id_i, id_i ∈ [403; 433; 403] → ∃ data, two_stations_db id_i = Ok data) ∧
  ∃ id2data, load two_stations_db [403; 433; 403] = (id2data, Ok tt) ∧
    dom id2data = list_to_set [403; 433; 403] ∧
    ∀ id_i data, id_i ∈ [403; 433; 403] → two_stations_db id_i = Ok data →
      id2data !! id_i = Some data.
Proof.
  split; [exact two_stations_db_answers|].
  exact (load_collects_every_station two_stations_db [403; 433; 403]
           two_stations_db_answers).
Defined.

Lemma load_stops_at_database_error_witness :
  unreachable_db 403 = Err OSError ∧
  ∃ id2data, load unreachable_db [] = (id2data, Ok tt) ∧
    load unreachable_db ([] ++ 403 :: [433]) = (id2data, Err OSError).
Proof.
  split; [reflexivity|].
  apply (load_stops_at_database_error unreachable_db [] 403 [433] OSError);
    [|reflexivity].
  intros k Hk. by apply elem_of_nil in Hk.
Defined.

Lemma report_after_load_no_KeyError_witness :
  load two_stations_db [403; 433] = (two_stations, Ok tt) ∧
  raised (report two_stations [403; 433] notebook_globals []) ≠ Some KeyError.
Proof.
  assert (load two_stations_db [403; 433] = (two_stations, Ok tt)) as Hrun.
  { by vm_compute. }
  split; [exact Hrun|].
  exact (report_after_load_no_KeyError two_stations_db [403; 433] two_stations
           notebook_globals [] Hrun).
Defined.

Lemma save_data_after_load_witness :
  load two_stations_db [403; 433] = (two_stations, Ok tt) ∧
  save_data (λ _, true) two_stations default_path ∅
    = (station_files two_stations default_path ∪ ∅, Ok tt) ∧
  size (station_files two_stations default_path)
    = size (list_to_set [403; 433] : gset Z).
Proof.
  assert (load two_stations_db [403; 433] = (two_stations, Ok tt)) as Hrun.
  { by vm_compute. }
  split; [exact Hrun|].
  destruct (save_data_after_load two_stations_db (λ _, true) [403; 433]
              two_stations ∅ Hrun) as (Hsave & _ & Hsize); [done|].
  by split.
Defined.
